(** * Authentication service (src/service/Authentication.ts)

    A shallow embedding of the login / register operations of
    [AuthenticationService] and of the verify callback of [jwtStrategy].

    The collaborators that live outside the file (the [User] ORM model,
    [SecurityUtil], [jsonwebtoken], the logger and the configured secret)
    are parameters of the development; the control flow, the object
    literals and the log lines are those of the source. *)

From stdpp Require Import base option list strings gmap.

Local Open Scope string_scope.

(** ** Promises

    Every operation of the service is a promise chain.  A settled promise
    is either fulfilled with a value or rejected with an error. *)

Inductive Promise (E A : Type) : Type :=
| Fulfilled (a : A)
| Rejected (e : E).

Arguments Fulfilled {E A} a.
Arguments Rejected {E A} e.

(** ** The logger (../config/logger) *)

Inductive Level : Type := LevelInfo | LevelDebug | LevelWarn | LevelError.

Definition LogEntry : Type := (Level * string)%type.

(** ** The user model (../models/User) *)

Module User.
Section Model.
Context {Id Details ClientConfig : Type}.

(** A user instance.  [password] is [None] when the attribute has been
    left out of the query (JavaScript [undefined]). *)
Record t : Type := mk {
  id : Id;
  username : string;
  password : option string;
  details : Details;
  clientConfig : ClientConfig
}.

(** Modelled from the spec: models/User is not part of the sources.
    The password field is excluded from default queries unless it is
    explicitly requested; [User.scope('withPassword')] requests it. *)
Definition defaultScope (u : t) : t :=
  mk (id u) (username u) None (details u) (clientConfig u).

Definition withPassword (u : t) : t := u.

(** Modelled from the spec: the store is queryable by id and username;
    [findOne] yields the first row satisfying the where clause, seen
    through the scope of the query, or [None] (JavaScript [null]). *)
Definition findOne (scope : t -> t) (where_ : t -> bool) (table : list t)
  : option t :=
  scope <$> find where_ table.

(** Modelled from the spec: in the data model the identifier of a user is
    unique, and so is the username. *)
Definition unique_ids (table : list t) : Prop := NoDup (id <$> table).

Definition unique_usernames (table : list t) : Prop :=
  NoDup (username <$> table).
End Model.

Arguments t : clear implicits.
End User.

(** The attributes handed to [register] and to [User.create]. *)

Module UserData.
Section Model.
Context {Details ClientConfig : Type}.

Record t : Type := mk {
  username : string;
  password : string;
  details : Details;
  clientConfig : ClientConfig
}.
End Model.

Arguments t : clear implicits.
End UserData.

(** ** JavaScript values and object literals *)

Section Values.
Context {Id Details ClientConfig : Type}.

Inductive Value : Type :=
| VBool (b : bool)
| VString (s : string)
| VId (i : Id)
| VUser (u : User.t Id Details ClientConfig).

End Values.

Arguments Value : clear implicits.

(** ** External collaborators

    What the service imports and this file does not define. *)

Class Collaborators (Id Details ClientConfig Secret Error : Type) := {
  (** [SecurityUtil.comparePassword(input, hash)] *)
  SecurityUtil_comparePassword : string -> option string -> bool;
  (** [SecurityUtil.generateHash(password)] *)
  SecurityUtil_generateHash : string -> string;
  (** [jwt.sign(payload, secret)] *)
  jwt_sign : gmap string (Value Id Details ClientConfig) -> Secret -> string;
  (** [secretOrKey] of ../config/passport *)
  secretOrKey : Secret;
  (** [User.create(values)]: settles with the created instance, with no
      record, or rejects; the table is updated on the way. *)
  User_create :
    UserData.t Details ClientConfig -> list (User.t Id Details ClientConfig) ->
    Promise Error (option (User.t Id Details ClientConfig))
    * list (User.t Id Details ClientConfig);
  (** The string a template literal makes of a caught error. *)
  Error_toString : Error -> string
}.

Section Authentication.

Context {Id Details ClientConfig Secret Error : Type}.
Context `{!EqDecision Id}.
Context {env : Collaborators Id Details ClientConfig Secret Error}.

Abbreviation User := (User.t Id Details ClientConfig).
Abbreviation UserData := (UserData.t Details ClientConfig).

Abbreviation Value := (Value Id Details ClientConfig).

(** An object literal: a finite map from field names to values. *)
Abbreviation Obj := (gmap string Value).

(** ** The world the service runs in, and its promise monad *)

Record World : Type := mkWorld {
  users : list User;
  logs : list LogEntry
}.

Definition Async (A : Type) : Type := World -> Promise Error A * World.

Definition resolve {A} (a : A) : Async A := fun w => (Fulfilled a, w).

Definition throw {A} (e : Error) : Async A := fun w => (Rejected e, w).

(** [p.then(k)] *)
Definition and_then {A B} (p : Async A) (k : A -> Async B) : Async B :=
  fun w =>
    match p w with
    | (Fulfilled a, w') => k a w'
    | (Rejected e, w') => (Rejected e, w')
    end.

(** [p.catch(h)] *)
Definition catch {A} (p : Async A) (h : Error -> Async A) : Async A :=
  fun w =>
    match p w with
    | (Fulfilled a, w') => (Fulfilled a, w')
    | (Rejected e, w') => h e w'
    end.

#[local] Instance Async_ret : MRet Async := @resolve.
#[local] Instance Async_bind : MBind Async := fun A B k p => and_then p k.

Definition log_line (lvl : Level) (msg : string) (w : World) : World :=
  mkWorld (users w) (logs w ++ [(lvl, msg)]).

Definition logger (lvl : Level) (msg : string) : Async unit :=
  fun w => (Fulfilled tt, log_line lvl msg w).

Definition logger_info := logger LevelInfo.
Definition logger_debug := logger LevelDebug.
Definition logger_warn := logger LevelWarn.
Definition logger_error := logger LevelError.

(** Queries read the table and leave the world as it is.  The lookup is
    taken to settle: the source has no handler for a lookup that rejects,
    in [login] or in the strategy. *)
Definition User_findOne (scope : User -> User) (where_ : User -> bool)
  : Async (option User) :=
  fun w => (Fulfilled (User.findOne scope where_ (users w)), w).

Definition User_create_async (values : UserData) : Async (option User) :=
  fun w =>
    let '(r, table) := User_create values (users w) in
    (r, mkWorld table (logs w)).

(** [where: { username: inputName }]: the username column equals the
    supplied name, character for character. *)
Definition where_username (inputName : string) (u : User) : bool :=
  bool_decide (User.username u = inputName).

(** [where: { id: jwtPayload.id }]: the id column equals the value read
    from the payload; a missing field or a value that is not an id
    equals no row's id. *)
Definition where_id (v : option Value) (u : User) : bool :=
  match v with
  | Some (VId i) => bool_decide (User.id u = i)
  | _ => false
  end.

(** ** jwtStrategy: the verify callback

    [next] is the continuation the framework passes in; its second
    argument is a user or [false], here [Some user] or [None]. *)

Definition jwtStrategy {R}
    (jwtPayload : Obj) (next : option Error -> option User -> Async R)
  : Async R :=
  user ← User_findOne User.defaultScope (where_id (jwtPayload !! "id"));
  match user with
  | Some user => next None (Some user)
  | None => next None None
  end.

(** ** AuthenticationService.login *)

(** The world once the first line of [login] has been logged. *)
Definition login_started (w : World) : World :=
  log_line LevelInfo "User is trying to login." w.

Definition login (inputName inputPassword : string) : Async Obj :=
  logger_info "User is trying to login." ;;
  user ← User_findOne User.withPassword (where_username inputName);
  match user with
  | None =>
      logger_info "Login failed. No such user." ;;
      mret {[ "success" := VBool false;
              "message" := VString "No such user." ]}
  | Some user =>
      let id := User.id user in
      let username := User.username user in
      let password := User.password user in
      if SecurityUtil_comparePassword inputPassword password then
        logger_info "User logged in." ;;
        let payload : Obj :=
          {[ "id" := VId id; "username" := VString username ]} in
        let token := jwt_sign payload secretOrKey in
        mret {[ "success" := VBool true;
                "message" := VString "User logged in.";
                "token" := VString token ]}
      else
        logger_info "Login failed. wrong password." ;;
        mret {[ "success" := VBool false;
                "message" := VString "Password did not match." ]}
  end.

(** The three ways [login] can end: the lookup finds no user, or it finds
    one and the comparison succeeds, or it finds one and the comparison
    fails; each with the object literal the source returns there. *)

Inductive LoginBranch (inputName inputPassword : string) (w : World)
  : Obj -> Prop :=
| branch_no_user :
    User.findOne User.withPassword (where_username inputName) (users w) = None ->
    LoginBranch inputName inputPassword w
      {[ "success" := VBool false; "message" := VString "No such user." ]}
| branch_match (u : User) :
    User.findOne User.withPassword (where_username inputName) (users w)
      = Some u ->
    SecurityUtil_comparePassword inputPassword (User.password u) = true ->
    LoginBranch inputName inputPassword w
      {[ "success" := VBool true;
         "message" := VString "User logged in.";
         "token" :=
           VString
             (jwt_sign
                {[ "id" := VId (User.id u);
                   "username" := VString (User.username u) ]}
                secretOrKey) ]}
| branch_mismatch (u : User) :
    User.findOne User.withPassword (where_username inputName) (users w)
      = Some u ->
    SecurityUtil_comparePassword inputPassword (User.password u) = false ->
    LoginBranch inputName inputPassword w
      {[ "success" := VBool false;
         "message" := VString "Password did not match." ]}.

(** ** AuthenticationService.register *)

Definition register (userData : UserData) : Async Obj :=
  let username := UserData.username userData in
  let password := UserData.password userData in
  let details := UserData.details userData in
  let clientConfig := UserData.clientConfig userData in
  logger_debug ("Registering user " +:+ username +:+ ".") ;;
  let hashedPassword := SecurityUtil_generateHash password in
  catch
    (user ← User_create_async
              (UserData.mk username hashedPassword details clientConfig);
     match user with
     | Some user =>
         mret {[ "success" := VBool true;
                 "message" := VString "Registration completed.";
                 "user" := VUser user ]}
     | None =>
         logger_warn "Registration failed." ;;
         mret {[ "success" := VBool false;
                 "message" := VString "Registration failed." ]}
     end)
    (fun error =>
       logger_error
         ("Could not register user: " +:+ Error_toString error +:+ ".") ;;
       throw error).

(** Modelled from the spec: models/User and the ORM behind it are not part
    of the sources.  A persistence layer that "persists a new user record"
    and "returns the created record" stores what it is given: the created
    instance is a row of the table afterwards and carries the attributes
    of the call, password included. *)
Definition create_stores_values
    (create : UserData -> list User ->
              Promise Error (option User) * list User) : Prop :=
  forall values table user table',
    create values table = (Fulfilled (Some user), table') ->
    user ∈ table'
    /\ User.username user = UserData.username values
    /\ User.password user = Some (UserData.password values)
    /\ User.details user = UserData.details values
    /\ User.clientConfig user = UserData.clientConfig values.

(** The message field of the object a promise was fulfilled with. *)
Definition message_of {E : Type} (p : Promise E Obj) : option Value :=
  match p with
  | Fulfilled r => r !! "message"
  | Rejected _ => None
  end.

(** ** Sessions of login attempts

    A client calling [login] again and again: each call runs in the world
    the previous one left. *)
Fixpoint login_attempts (attempts : list (string * string)) (w : World)
  : World :=
  match attempts with
  | [] => w
  | (inputName, inputPassword) :: rest =>
      login_attempts rest (snd (login inputName inputPassword w))
  end.

End Authentication.

Arguments World : clear implicits.
Arguments Async : clear implicits.

(** ** A small concrete deployment

    Toy collaborators on which the statements below are exercised: a
    tagging hash, a table with unique usernames and numeric ids, and a
    [create] that rejects a username already taken. *)

Module Demo.

Abbreviation User := (User.t nat string string).
Abbreviation UserData := (UserData.t string string).
Abbreviation Value := (Value nat string string).

Definition generateHash (password : string) : string := "hash:" +:+ password.

Definition comparePassword (input : string) (hash : option string) : bool :=
  bool_decide (hash = Some (generateHash input)).

Definition sign (payload : gmap string Value) (secret : string) : string :=
  match payload !! "username" with
  | Some (VString name) => "jwt." +:+ name +:+ "." +:+ secret
  | _ => "jwt.." +:+ secret
  end.

Definition create (values : UserData) (table : list User)
  : Promise string (option User) * list User :=
  if bool_decide (UserData.username values ∈ User.username <$> table) then
    (Rejected "SequelizeUniqueConstraintError", table)
  else
    let user :=
      User.mk (S (List.length table)) (UserData.username values)
        (Some (UserData.password values))
        (UserData.details values) (UserData.clientConfig values) in
    (Fulfilled (Some user), (table ++ [user])%list).

#[export] Instance collaborators
  : Collaborators nat string string string string := {|
  SecurityUtil_comparePassword := comparePassword;
  SecurityUtil_generateHash := generateHash;
  jwt_sign := sign;
  secretOrKey := "s3cret";
  User_create := create;
  Error_toString := fun e => e
|}.

(** The same deployment over a persistence layer that settles without a
    record. *)
Definition collaborators_no_record
  : Collaborators nat string string string string := {|
  SecurityUtil_comparePassword := comparePassword;
  SecurityUtil_generateHash := generateHash;
  jwt_sign := sign;
  secretOrKey := "s3cret";
  User_create := fun _ table => (Fulfilled None, table);
  Error_toString := fun e => e
|}.

Definition alice : User :=
  User.mk 1 "alice" (Some (generateHash "wonderland")) "profile-a" "cfg-a".

Definition bob : User :=
  User.mk 2 "bob" (Some (generateHash "builder")) "profile-b" "cfg-b".

Definition world : World nat string string := mkWorld [alice; bob] [].

Definition carol : UserData :=
  UserData.mk "carol" "opensesame" "profile-c" "cfg-c".

(** A [next] that records what it is called with. *)
Definition next (err : option string) (user : option User)
  : Async nat string string string (option string * option User) :=
  resolve (err, user).

Definition alice_again : UserData :=
  UserData.mk "alice" "rabbit" "profile-a2" "cfg-a2".

End Demo.

(** * Properties *)

(** ** Lookups in a table *)

Section Lookup.

Context {A K : Type} `{!EqDecision K}.
Variable key : A -> K.

Lemma find_key_Some (k : K) (table : list A) (a : A) :
  find (fun x => bool_decide (key x = k)) table = Some a ->
  a ∈ table /\ key a = k.
Proof.
  induction table as [|x table IH]; simpl; [discriminate|].
  case_bool_decide as Hx.
  - intros [= <-]. split; [left | exact Hx].
  - intros Hfind. destruct (IH Hfind) as [Hin Hkey].
    split; [right; exact Hin | exact Hkey].
Qed.

Lemma find_key_None (k : K) (table : list A) :
  (forall a, a ∈ table -> key a ≠ k) ->
  find (fun x => bool_decide (key x = k)) table = None.
Proof.
  induction table as [|x table IH]; simpl; intros Hall; [reflexivity|].
  case_bool_decide as Hx.
  - exfalso. apply (Hall x); [left | exact Hx].
  - apply IH. intros a Ha. apply Hall. right. exact Ha.
Qed.

Lemma find_key_unique (k : K) (table : list A) (a : A) :
  NoDup (key <$> table) -> a ∈ table -> key a = k ->
  find (fun x => bool_decide (key x = k)) table = Some a.
Proof.
  induction table as [|x table IH]; simpl; intros Hnd Hin Hkey.
  - inversion Hin.
  - apply NoDup_cons in Hnd as [Hx Hnd].
    apply elem_of_cons in Hin as [-> | Hin].
    + rewrite bool_decide_eq_true_2 by exact Hkey. reflexivity.
    + case_bool_decide as Hxk.
      * exfalso. apply Hx. rewrite Hxk, <- Hkey.
        apply list_elem_of_fmap_2. exact Hin.
      * apply IH; assumption.
Qed.

Lemma find_never (table : list A) : find (fun _ => false) table = None.
Proof. induction table as [|x table IH]; [reflexivity | exact IH]. Qed.

End Lookup.

Section Properties.

Context {Id Details ClientConfig Secret Error : Type}.
Context `{!EqDecision Id}.
Context {env : Collaborators Id Details ClientConfig Secret Error}.

Abbreviation User := (User.t Id Details ClientConfig).
Abbreviation UserData := (UserData.t Details ClientConfig).
Abbreviation Value := (Value Id Details ClientConfig).
Abbreviation Obj := (gmap string Value).
Abbreviation World := (World Id Details ClientConfig).

Implicit Types (w : World) (u : User) (r payload : Obj).
Implicit Types (inputName inputPassword : string).

(** ** The user looked up by [login] *)

Lemma findOne_username_Some inputName (table : list User) u :
  User.findOne User.withPassword (where_username inputName) table = Some u ->
  u ∈ table /\ User.username u = inputName.
Proof.
  unfold User.findOne, User.withPassword, where_username.
  rewrite option_fmap_id. apply (find_key_Some User.username).
Qed.

Lemma findOne_username_None inputName (table : list User) :
  (forall u, u ∈ table -> User.username u ≠ inputName) ->
  User.findOne User.withPassword (where_username inputName) table = None.
Proof.
  intros Hall. unfold User.findOne, where_username.
  rewrite (find_key_None User.username) by exact Hall. reflexivity.
Qed.

Lemma findOne_username_unique inputName (table : list User) u :
  NoDup (User.username <$> table) -> u ∈ table ->
  User.username u = inputName ->
  User.findOne User.withPassword (where_username inputName) table = Some u.
Proof.
  intros Hnd Hin Hname. unfold User.findOne, where_username.
  rewrite (find_key_unique User.username inputName table u) by assumption.
  reflexivity.
Qed.

(** ** [login], branch by branch *)

Lemma login_no_user inputName inputPassword w :
  User.findOne User.withPassword (where_username inputName) (users w) = None ->
  login inputName inputPassword w =
    (Fulfilled {[ "success" := VBool false;
                  "message" := VString "No such user." ]},
     log_line LevelInfo "Login failed. No such user." (login_started w)).
Proof.
  intros Hfind. unfold login, mbind, Async_bind, and_then; simpl.
  unfold User_findOne; simpl. rewrite Hfind. reflexivity.
Qed.

Lemma login_match inputName inputPassword w u :
  User.findOne User.withPassword (where_username inputName) (users w) = Some u ->
  SecurityUtil_comparePassword inputPassword (User.password u) = true ->
  login inputName inputPassword w =
    (Fulfilled
       {[ "success" := VBool true;
          "message" := VString "User logged in.";
          "token" :=
            VString
              (jwt_sign
                 {[ "id" := VId (User.id u);
                    "username" := VString (User.username u) ]}
                 secretOrKey) ]},
     log_line LevelInfo "User logged in." (login_started w)).
Proof.
  intros Hfind Hcmp. unfold login, mbind, Async_bind, and_then; simpl.
  unfold User_findOne; simpl. rewrite Hfind, Hcmp. reflexivity.
Qed.

Lemma login_mismatch inputName inputPassword w u :
  User.findOne User.withPassword (where_username inputName) (users w) = Some u ->
  SecurityUtil_comparePassword inputPassword (User.password u) = false ->
  login inputName inputPassword w =
    (Fulfilled {[ "success" := VBool false;
                  "message" := VString "Password did not match." ]},
     log_line LevelInfo "Login failed. wrong password." (login_started w)).
Proof.
  intros Hfind Hcmp. unfold login, mbind, Async_bind, and_then; simpl.
  unfold User_findOne; simpl. rewrite Hfind, Hcmp. reflexivity.
Qed.

(** [login] always fulfils, in one of its three branches. *)

Lemma login_branches inputName inputPassword w :
  exists r w',
    login inputName inputPassword w = (Fulfilled r, w')
    /\ LoginBranch inputName inputPassword w r.
Proof.
  destruct (User.findOne User.withPassword (where_username inputName) (users w))
    as [u|] eqn:Hfind.
  - destruct (SecurityUtil_comparePassword inputPassword (User.password u))
      eqn:Hcmp.
    + eexists _, _. split; [apply (login_match _ _ _ u); assumption|].
      apply (branch_match _ _ _ u); assumption.
    + eexists _, _. split; [apply (login_mismatch _ _ _ u); assumption|].
      apply (branch_mismatch _ _ _ u); assumption.
  - eexists _, _. split; [apply login_no_user; assumption|].
    apply branch_no_user; assumption.
Qed.

Lemma login_fulfilled_branch inputName inputPassword w r w' :
  login inputName inputPassword w = (Fulfilled r, w') ->
  LoginBranch inputName inputPassword w r.
Proof.
  intros Hrun.
  destruct (login_branches inputName inputPassword w) as (r0 & w0 & Hrun0 & Hbr).
  rewrite Hrun in Hrun0. injection Hrun0 as -> _. exact Hbr.
Qed.

(** C1: [login] always settles with a result object, and that object
    carries a token only if the lookup by the exact username found a user
    and the comparison of the supplied password with that user's stored
    hash succeeded; the not-found and the mismatch branches carry none. *)
Theorem login_token_only_after_compare inputName inputPassword w :
  exists r w',
    login inputName inputPassword w = (Fulfilled r, w')
    /\ (is_Some (r !! "token") ->
        exists u,
          u ∈ users w
          /\ User.username u = inputName
          /\ User.findOne User.withPassword (where_username inputName) (users w)
             = Some u
          /\ SecurityUtil_comparePassword inputPassword (User.password u)
             = true)
    /\ (User.findOne User.withPassword (where_username inputName) (users w)
        = None -> r !! "token" = None)
    /\ (forall u,
          User.findOne User.withPassword (where_username inputName) (users w)
          = Some u ->
          SecurityUtil_comparePassword inputPassword (User.password u) = false ->
          r !! "token" = None).
Proof.
  destruct (login_branches inputName inputPassword w) as (r & w' & Hrun & Hbr).
  exists r, w'. split; [exact Hrun|].
  destruct Hbr as [Hnone | u Hsome Hcmp | u Hsome Hcmp].
  - split; [|split].
    + intros [v Hv]. discriminate Hv.
    + reflexivity.
    + intros u Hu. congruence.
  - split; [|split].
    + intros _. exists u.
      destruct (findOne_username_Some _ _ _ Hsome) as [Hin Hname].
      auto.
    + congruence.
    + intros u' Hu' Hcmp'. congruence.
  - split; [|split].
    + intros [v Hv]. discriminate Hv.
    + reflexivity.
    + reflexivity.
Qed.

(** C2: when the table (usernames unique, as the data model has them)
    holds a user with the supplied username whose stored hash matches the
    supplied password, [login] fulfils with [success: true] and a token;
    the token is what [jwt.sign] returns, hence non-empty as soon as the
    token utility never returns the empty string. *)
Theorem login_correct_credentials inputName inputPassword w u :
  User.unique_usernames (users w) ->
  u ∈ users w ->
  User.username u = inputName ->
  SecurityUtil_comparePassword inputPassword (User.password u) = true ->
  (forall payload (secret : Secret), jwt_sign payload secret ≠ "") ->
  exists token w',
    login inputName inputPassword w =
      (Fulfilled {[ "success" := VBool true;
                    "message" := VString "User logged in.";
                    "token" := VString token ]}, w')
    /\ token ≠ "".
Proof.
  intros Hnd Hin Hname Hcmp Hsign.
  pose proof (findOne_username_unique _ _ _ Hnd Hin Hname) as Hfind.
  eexists _, _. split.
  - apply (login_match _ _ _ u); assumption.
  - apply Hsign.
Qed.

(** C3: when no user of the table has the supplied username, [login]
    fulfils with exactly [{success: false, message: "No such user."}]:
    the object has no token field. *)
Theorem login_unknown_user inputName inputPassword w :
  (forall u, u ∈ users w -> User.username u ≠ inputName) ->
  exists r w',
    login inputName inputPassword w = (Fulfilled r, w')
    /\ r = {[ "success" := VBool false; "message" := VString "No such user." ]}
    /\ r !! "success" = Some (VBool false)
    /\ r !! "message" = Some (VString "No such user.")
    /\ r !! "token" = None.
Proof.
  intros Hall. eexists _, _. split.
  - apply login_no_user. apply findOne_username_None. exact Hall.
  - repeat split.
Qed.

(** C4: when the table (usernames unique) holds a user with the supplied
    username whose stored hash does not match the supplied password,
    [login] fulfils with exactly
    [{success: false, message: "Password did not match."}]: no token
    field. *)
Theorem login_wrong_password inputName inputPassword w u :
  User.unique_usernames (users w) ->
  u ∈ users w ->
  User.username u = inputName ->
  SecurityUtil_comparePassword inputPassword (User.password u) = false ->
  exists r w',
    login inputName inputPassword w = (Fulfilled r, w')
    /\ r = {[ "success" := VBool false;
              "message" := VString "Password did not match." ]}
    /\ r !! "success" = Some (VBool false)
    /\ r !! "message" = Some (VString "Password did not match.")
    /\ r !! "token" = None.
Proof.
  intros Hnd Hin Hname Hcmp.
  pose proof (findOne_username_unique _ _ _ Hnd Hin Hname) as Hfind.
  eexists _, _. split.
  - apply (login_mismatch _ _ _ u); assumption.
  - repeat split.
Qed.

(** C5: whenever [login] fulfils with [success: true], its token is the
    signature, under the configured secret, of a payload whose fields are
    exactly [id] and [username], holding the id and the username of the
    user that was looked up and whose password matched. *)
Theorem login_payload_fields inputName inputPassword w r w' :
  login inputName inputPassword w = (Fulfilled r, w') ->
  r !! "success" = Some (VBool true) ->
  exists u payload,
    User.findOne User.withPassword (where_username inputName) (users w) = Some u
    /\ SecurityUtil_comparePassword inputPassword (User.password u) = true
    /\ r !! "token" = Some (VString (jwt_sign payload secretOrKey))
    /\ dom payload = {[ "id"; "username" ]}
    /\ payload !! "id" = Some (VId (User.id u))
    /\ payload !! "username" = Some (VString (User.username u)).
Proof.
  intros Hrun Hsuccess.
  destruct (login_fulfilled_branch _ _ _ _ _ Hrun) as [Hnone | u Hsome Hcmp | u Hsome Hcmp].
  - discriminate Hsuccess.
  - exists u, {[ "id" := VId (User.id u);
                 "username" := VString (User.username u) ]}.
    split; [exact Hsome|]. split; [exact Hcmp|].
    split; [reflexivity|]. split; [|split; reflexivity].
    rewrite dom_insert_L, dom_singleton_L. reflexivity.
  - discriminate Hsuccess.
Qed.

(** C10: the object [login] fulfils with has a token field exactly when
    its success field is [true], never has a user field, and its message
    is one of the three messages of the source. *)
Theorem login_result_shape inputName inputPassword w :
  exists r w',
    login inputName inputPassword w = (Fulfilled r, w')
    /\ (is_Some (r !! "token") <-> r !! "success" = Some (VBool true))
    /\ r !! "user" = None
    /\ (r !! "message" = Some (VString "User logged in.")
        \/ r !! "message" = Some (VString "No such user.")
        \/ r !! "message" = Some (VString "Password did not match.")).
Proof.
  destruct (login_branches inputName inputPassword w) as (r & w' & Hrun & Hbr).
  exists r, w'. split; [exact Hrun|].
  destruct Hbr as [Hnone | u Hsome Hcmp | u Hsome Hcmp].
  - split; [|split]; [|reflexivity|right; left; reflexivity].
    split; [intros [v Hv]; discriminate Hv | discriminate].
  - split; [|split]; [|reflexivity|left; reflexivity].
    split; [reflexivity | intros _; eexists; reflexivity].
  - split; [|split]; [|reflexivity|right; right; reflexivity].
    split; [intros [v Hv]; discriminate Hv | discriminate].
Qed.

(** ** [register], outcome by outcome *)

Implicit Types (userData : UserData).

Lemma register_run userData w :
  register userData w =
    let started :=
      log_line LevelDebug
        ("Registering user " +:+ UserData.username userData +:+ ".") w in
    match
      User_create
        (UserData.mk (UserData.username userData)
           (SecurityUtil_generateHash (UserData.password userData))
           (UserData.details userData) (UserData.clientConfig userData))
        (users w)
    with
    | (Fulfilled (Some user), table) =>
        (Fulfilled {[ "success" := VBool true;
                      "message" := VString "Registration completed.";
                      "user" := VUser user ]},
         mkWorld table (logs started))
    | (Fulfilled None, table) =>
        (Fulfilled {[ "success" := VBool false;
                      "message" := VString "Registration failed." ]},
         log_line LevelWarn "Registration failed."
           (mkWorld table (logs started)))
    | (Rejected e, table) =>
        (Rejected e,
         log_line LevelError
           ("Could not register user: " +:+ Error_toString e +:+ ".")
           (mkWorld table (logs started)))
    end.
Proof.
  unfold register, catch, mbind, Async_bind, and_then, User_create_async.
  simpl.
  destruct (User_create _ (users w)) as [[[user|]|e] table]; reflexivity.
Qed.

(** C6: when [User.create] settles with a record, [register] has handed
    it the hash of the plaintext as password, and fulfils with
    [success: true] and that very record, unprojected.  Over a persistence
    layer that stores what it is given, the record is a row of the table
    afterwards and its password field is the hash, which differs from the
    plaintext whenever the hash utility does not return its input. *)
Theorem register_created userData w user table' :
  User_create
    (UserData.mk (UserData.username userData)
       (SecurityUtil_generateHash (UserData.password userData))
       (UserData.details userData) (UserData.clientConfig userData))
    (users w) = (Fulfilled (Some user), table') ->
  create_stores_values User_create ->
  SecurityUtil_generateHash (UserData.password userData)
    ≠ UserData.password userData ->
  exists w',
    register userData w =
      (Fulfilled {[ "success" := VBool true;
                    "message" := VString "Registration completed.";
                    "user" := VUser user ]}, w')
    /\ users w' = table'
    /\ user ∈ users w'
    /\ User.password user
       = Some (SecurityUtil_generateHash (UserData.password userData))
    /\ User.password user ≠ Some (UserData.password userData).
Proof.
  intros Hcreate Hstores Hhash.
  destruct (Hstores _ _ _ _ Hcreate) as (Hin & _ & Hpw & _).
  simpl in Hpw.
  eexists. split; [rewrite register_run, Hcreate; reflexivity|].
  simpl. split; [reflexivity|]. split; [exact Hin|]. split; [exact Hpw|].
  rewrite Hpw. intros [= Heq]. exact (Hhash Heq).
Qed.

(** C7: when [User.create] rejects with an error, [register] does not
    fulfil with any result object: it logs the error and rejects with the
    same error. *)
Theorem register_persistence_error userData w e table' :
  User_create
    (UserData.mk (UserData.username userData)
       (SecurityUtil_generateHash (UserData.password userData))
       (UserData.details userData) (UserData.clientConfig userData))
    (users w) = (Rejected e, table') ->
  register userData w =
    (Rejected e,
     mkWorld table'
       (logs w ++
        [(LevelDebug,
          "Registering user " +:+ UserData.username userData +:+ ".");
         (LevelError,
          "Could not register user: " +:+ Error_toString e +:+ ".")]))
  /\ (forall r w', register userData w ≠ (Fulfilled r, w')).
Proof.
  intros Hcreate. rewrite register_run, Hcreate.
  split; [|discriminate].
  unfold log_line; simpl. rewrite <- app_assoc. reflexivity.
Qed.

(** C8: when [User.create] settles with no record and without rejecting,
    [register] fulfils with exactly
    [{success: false, message: "Registration failed."}]: no user field. *)
Theorem register_no_record userData w table' :
  User_create
    (UserData.mk (UserData.username userData)
       (SecurityUtil_generateHash (UserData.password userData))
       (UserData.details userData) (UserData.clientConfig userData))
    (users w) = (Fulfilled None, table') ->
  exists r w',
    register userData w = (Fulfilled r, w')
    /\ r = {[ "success" := VBool false;
              "message" := VString "Registration failed." ]}
    /\ r !! "success" = Some (VBool false)
    /\ r !! "message" = Some (VString "Registration failed.")
    /\ r !! "user" = None.
Proof.
  intros Hcreate. eexists _, _. split.
  - rewrite register_run, Hcreate. reflexivity.
  - repeat split.
Qed.

(** ** The verify callback of [jwtStrategy] *)

Lemma findOne_id_unique (table : list User) u :
  NoDup (User.id <$> table) -> u ∈ table ->
  User.findOne User.defaultScope (where_id (Some (VId (User.id u)))) table
  = Some (User.defaultScope u).
Proof.
  intros Hnd Hin. unfold User.findOne.
  change (where_id (Some (VId (User.id u))))
    with (fun x : User => bool_decide (User.id x = User.id u)).
  rewrite (find_key_unique User.id (User.id u) table u) by auto.
  reflexivity.
Qed.

Lemma findOne_id_None (v : option Value) (table : list User) :
  (forall u, u ∈ table -> v ≠ Some (VId (User.id u))) ->
  User.findOne User.defaultScope (where_id v) table = None.
Proof.
  intros Hall. unfold User.findOne.
  destruct v as [[b|s|i|u']|];
    try (unfold where_id; rewrite find_never; reflexivity).
  change (where_id (Some (VId i)))
    with (fun x : User => bool_decide (User.id x = i)).
  rewrite (find_key_None User.id); [reflexivity|].
  intros u Hu Hid. apply (Hall u Hu). rewrite Hid. reflexivity.
Qed.

(** C9: the verify callback looks the user up by the id read from the
    payload.  Over a table with unique ids, if a user with that id exists
    the callback calls [next(null, user)] with that user's record (as the
    default scope shows it); if none exists it calls [next(null, false)].
    In both cases the error argument is [null] and nothing is raised by
    the callback itself: its outcome is that of [next]. *)
Theorem jwtStrategy_resolves_user {R} (jwtPayload : Obj)
    (next : option Error -> option User ->
            Async Id Details ClientConfig Error R) w :
  User.unique_ids (users w) ->
  (forall u,
     u ∈ users w ->
     jwtPayload !! "id" = Some (VId (User.id u)) ->
     jwtStrategy jwtPayload next w = next None (Some (User.defaultScope u)) w)
  /\ ((forall u, u ∈ users w -> jwtPayload !! "id" ≠ Some (VId (User.id u))) ->
      jwtStrategy jwtPayload next w = next None None w).
Proof.
  intros Hnd. unfold jwtStrategy, mbind, Async_bind, and_then, User_findOne.
  split.
  - intros u Hin Hid. rewrite Hid, findOne_id_unique by assumption.
    reflexivity.
  - intros Hall. rewrite findOne_id_None by exact Hall. reflexivity.
Qed.

End Properties.

(** * The statements at work on the concrete deployment *)

Lemma Demo_create_stores_values :
  create_stores_values (Error := string) Demo.create.
Proof.
  intros values table user table'. unfold Demo.create.
  case_bool_decide as Htaken; [discriminate|].
  intros [= <- <-]. simpl. split; [|auto].
  apply elem_of_app. right. left.
Qed.

Lemma Demo_sign_nonempty (payload : gmap string Demo.Value) (secret : string) :
  Demo.sign payload secret ≠ "".
Proof.
  unfold Demo.sign. destruct (payload !! "username") as [[b|s|i|u]|];
    discriminate.
Qed.

Lemma Demo_world_usernames : User.unique_usernames (users Demo.world).
Proof. apply (bool_decide_unpack _). vm_compute. exact I. Qed.

Lemma Demo_world_ids : User.unique_ids (users Demo.world).
Proof. apply (bool_decide_unpack _). vm_compute. exact I. Qed.

Example login_alice :
  login (env := Demo.collaborators) "alice" "wonderland" Demo.world =
    (Fulfilled {[ "success" := VBool true;
                  "message" := VString "User logged in.";
                  "token" := VString "jwt.alice.s3cret" ]},
     mkWorld [Demo.alice; Demo.bob]
       [(LevelInfo, "User is trying to login.");
        (LevelInfo, "User logged in.")]).
Proof. reflexivity. Qed.

Example login_alice_wrong_password :
  login (env := Demo.collaborators) "alice" "builder" Demo.world =
    (Fulfilled {[ "success" := VBool false;
                  "message" := VString "Password did not match." ]},
     mkWorld [Demo.alice; Demo.bob]
       [(LevelInfo, "User is trying to login.");
        (LevelInfo, "Login failed. wrong password.")]).
Proof. reflexivity. Qed.

Example register_carol_then_login :
  let '(_, w) := register (env := Demo.collaborators) Demo.carol Demo.world in
  fst (login (env := Demo.collaborators) "carol" "opensesame" w) =
    Fulfilled {[ "success" := VBool true;
                 "message" := VString "User logged in.";
                 "token" := VString "jwt.carol.s3cret" ]}.
Proof. reflexivity. Qed.

Lemma login_token_only_after_compare_witness :
  exists r w',
    login (env := Demo.collaborators) "alice" "wonderland" Demo.world
      = (Fulfilled r, w')
    /\ is_Some (r !! "token")
    /\ exists u,
         u ∈ users Demo.world
         /\ User.username u = "alice"
         /\ Demo.comparePassword "wonderland" (User.password u) = true.
Proof.
  destruct (login_token_only_after_compare
              (env := Demo.collaborators) "alice" "wonderland" Demo.world)
    as (r & w' & Hrun & Htoken & _).
  exists r, w'. split; [exact Hrun|].
  assert (Hsome : is_Some (r !! "token")).
  { vm_compute in Hrun. injection Hrun as <- _. eexists. reflexivity. }
  split; [exact Hsome|].
  destruct (Htoken Hsome) as (u & Hin & Hname & _ & Hcmp).
  exists u. auto.
Defined.

Lemma login_correct_credentials_witness :
  exists token w',
    login (env := Demo.collaborators) "alice" "wonderland" Demo.world =
      (Fulfilled {[ "success" := VBool true;
                    "message" := VString "User logged in.";
                    "token" := VString token ]}, w')
    /\ token ≠ "".
Proof.
  apply (login_correct_credentials (env := Demo.collaborators)
           "alice" "wonderland" Demo.world Demo.alice).
  - exact Demo_world_usernames.
  - left.
  - reflexivity.
  - reflexivity.
  - exact Demo_sign_nonempty.
Defined.

Lemma login_unknown_user_witness :
  exists r w',
    login (env := Demo.collaborators) "mallory" "wonderland" Demo.world
      = (Fulfilled r, w')
    /\ r = {[ "success" := VBool false; "message" := VString "No such user." ]}
    /\ r !! "success" = Some (VBool false)
    /\ r !! "message" = Some (VString "No such user.")
    /\ r !! "token" = None.
Proof.
  apply (login_unknown_user (env := Demo.collaborators)
           "mallory" "wonderland" Demo.world).
  intros u Hu. simpl in Hu.
  apply elem_of_cons in Hu as [-> | Hu]; [discriminate|].
  apply elem_of_cons in Hu as [-> | Hu]; [discriminate|].
  inversion Hu.
Defined.

Lemma login_wrong_password_witness :
  exists r w',
    login (env := Demo.collaborators) "bob" "wonderland" Demo.world
      = (Fulfilled r, w')
    /\ r = {[ "success" := VBool false;
              "message" := VString "Password did not match." ]}
    /\ r !! "success" = Some (VBool false)
    /\ r !! "message" = Some (VString "Password did not match.")
    /\ r !! "token" = None.
Proof.
  apply (login_wrong_password (env := Demo.collaborators)
           "bob" "wonderland" Demo.world Demo.bob).
  - exact Demo_world_usernames.
  - right. left.
  - reflexivity.
  - reflexivity.
Defined.

Lemma login_payload_fields_witness :
  exists u payload,
    User.findOne User.withPassword (where_username "alice") (users Demo.world)
      = Some u
    /\ Demo.comparePassword "wonderland" (User.password u) = true
    /\ ({[ "success" := VBool true;
           "message" := VString "User logged in.";
           "token" := VString "jwt.alice.s3cret" ]}
         : gmap string Demo.Value) !! "token"
       = Some (VString (Demo.sign payload "s3cret"))
    /\ dom payload = {[ "id"; "username" ]}
    /\ payload !! "id" = Some (VId (User.id u))
    /\ payload !! "username" = Some (VString (User.username u)).
Proof.
  apply (login_payload_fields (env := Demo.collaborators)
           "alice" "wonderland" Demo.world
           {[ "success" := VBool true;
              "message" := VString "User logged in.";
              "token" := VString "jwt.alice.s3cret" ]}
           (log_line LevelInfo "User logged in."
              (login_started Demo.world))).
  - reflexivity.
  - reflexivity.
Defined.

Lemma login_result_shape_witness :
  exists r w',
    login (env := Demo.collaborators) "bob" "builder" Demo.world
      = (Fulfilled r, w')
    /\ (is_Some (r !! "token") <-> r !! "success" = Some (VBool true))
    /\ r !! "user" = None
    /\ (r !! "message" = Some (VString "User logged in.")
        \/ r !! "message" = Some (VString "No such user.")
        \/ r !! "message" = Some (VString "Password did not match.")).
Proof.
  apply (login_result_shape (env := Demo.collaborators)
           "bob" "builder" Demo.world).
Defined.

Lemma register_created_witness :
  exists w',
    register (env := Demo.collaborators) Demo.carol Demo.world =
      (Fulfilled
         {[ "success" := VBool true;
            "message" := VString "Registration completed.";
            "user" :=
              VUser (User.mk 3 "carol" (Some "hash:opensesame")
                       "profile-c" "cfg-c") ]}, w')
    /\ users w'
       = [Demo.alice; Demo.bob;
          User.mk 3 "carol" (Some "hash:opensesame") "profile-c" "cfg-c"]
    /\ User.mk 3 "carol" (Some "hash:opensesame") "profile-c" "cfg-c"
       ∈ users w'
    /\ Some "hash:opensesame" = Some (Demo.generateHash "opensesame")
    /\ Some "hash:opensesame" ≠ Some "opensesame".
Proof.
  apply (register_created (env := Demo.collaborators) Demo.carol Demo.world
           (User.mk 3 "carol" (Some "hash:opensesame") "profile-c" "cfg-c")
           [Demo.alice; Demo.bob;
            User.mk 3 "carol" (Some "hash:opensesame") "profile-c" "cfg-c"]).
  - reflexivity.
  - exact Demo_create_stores_values.
  - discriminate.
Defined.

Lemma register_persistence_error_witness :
  register (env := Demo.collaborators) Demo.alice_again Demo.world =
    (Rejected "SequelizeUniqueConstraintError",
     mkWorld [Demo.alice; Demo.bob]
       [(LevelDebug, "Registering user alice.");
        (LevelError,
         "Could not register user: SequelizeUniqueConstraintError.")])
  /\ (forall r w',
        register (env := Demo.collaborators) Demo.alice_again Demo.world
        ≠ (Fulfilled r, w')).
Proof.
  apply (register_persistence_error (env := Demo.collaborators)
           Demo.alice_again Demo.world "SequelizeUniqueConstraintError"
           [Demo.alice; Demo.bob]).
  reflexivity.
Defined.

Lemma register_no_record_witness :
  exists r w',
    register (env := Demo.collaborators_no_record) Demo.carol Demo.world
      = (Fulfilled r, w')
    /\ r = {[ "success" := VBool false;
              "message" := VString "Registration failed." ]}
    /\ r !! "success" = Some (VBool false)
    /\ r !! "message" = Some (VString "Registration failed.")
    /\ r !! "user" = None.
Proof.
  apply (register_no_record (env := Demo.collaborators_no_record)
           Demo.carol Demo.world [Demo.alice; Demo.bob]).
  reflexivity.
Defined.

Lemma jwtStrategy_resolves_user_witness :
  jwtStrategy {[ "id" := VId 2; "username" := VString "bob" ]}
    Demo.next Demo.world
  = (Fulfilled
       (None, Some (User.mk 2 "bob" None "profile-b" "cfg-b")), Demo.world)
  /\ jwtStrategy {[ "id" := VId 7; "username" := VString "zoe" ]}
       Demo.next Demo.world
     = (Fulfilled (None, None), Demo.world).
Proof.
  split.
  - apply (proj1 (jwtStrategy_resolves_user
                    {[ "id" := VId 2; "username" := VString "bob" ]}
                    Demo.next Demo.world Demo_world_ids) Demo.bob).
    + right. left.
    + reflexivity.
  - apply (proj2 (jwtStrategy_resolves_user
                    {[ "id" := VId 7; "username" := VString "zoe" ]}
                    Demo.next Demo.world Demo_world_ids)).
    intros u Hu. simpl in Hu.
    apply elem_of_cons in Hu as [-> | Hu]; [discriminate|].
    apply elem_of_cons in Hu as [-> | Hu]; [discriminate|].
    inversion Hu.
Defined.

(** * Further properties of the service *)

Section Effects.

Context {Id Details ClientConfig Secret Error : Type}.
Context `{!EqDecision Id}.
Context {env : Collaborators Id Details ClientConfig Secret Error}.

Abbreviation User := (User.t Id Details ClientConfig).
Abbreviation UserData := (UserData.t Details ClientConfig).
Abbreviation Value := (Value Id Details ClientConfig).
Abbreviation Obj := (gmap string Value).
Abbreviation World := (World Id Details ClientConfig).

Implicit Types (w : World) (u : User) (r payload : Obj).
Implicit Types (inputName inputPassword : string) (userData : UserData).

(** ** What [login] does to the world *)

(** X1: [login] never touches the user table and appends exactly two
    info lines to the log: the opening line and one of three fixed lines,
    "User logged in." exactly when the result reports success.  Neither
    the username nor the password reaches the log. *)
Theorem login_effects inputName inputPassword w :
  exists r line,
    login inputName inputPassword w =
      (Fulfilled r,
       mkWorld (users w)
         (logs w ++ [(LevelInfo, "User is trying to login.");
                     (LevelInfo, line)]))
    /\ line ∈ ["User logged in."; "Login failed. No such user.";
               "Login failed. wrong password."]
    /\ (line = "User logged in." <-> r !! "success" = Some (VBool true)).
Proof.
  destruct (User.findOne User.withPassword (where_username inputName) (users w))
    as [u|] eqn:Hfind;
    [destruct (SecurityUtil_comparePassword inputPassword (User.password u))
       eqn:Hcmp|].
  - eexists _, "User logged in.". split; [|split].
    + rewrite (login_match _ _ _ u) by assumption.
      unfold login_started, log_line; simpl. rewrite <- app_assoc. reflexivity.
    + set_solver.
    + split; reflexivity.
  - eexists _, "Login failed. wrong password.". split; [|split].
    + rewrite (login_mismatch _ _ _ u) by assumption.
      unfold login_started, log_line; simpl. rewrite <- app_assoc. reflexivity.
    + set_solver.
    + split; discriminate.
  - eexists _, "Login failed. No such user.". split; [|split].
    + rewrite login_no_user by assumption.
      unfold login_started, log_line; simpl. rewrite <- app_assoc. reflexivity.
    + set_solver.
    + split; discriminate.
Qed.

Lemma login_users inputName inputPassword w :
  users (snd (login inputName inputPassword w)) = users w.
Proof.
  destruct (login_effects inputName inputPassword w) as (r & line & Hrun & _).
  rewrite Hrun. reflexivity.
Qed.

Lemma login_result_of_table inputName inputPassword w1 w2 :
  users w1 = users w2 ->
  fst (login inputName inputPassword w1) = fst (login inputName inputPassword w2).
Proof.
  intros Htable.
  destruct (User.findOne User.withPassword (where_username inputName) (users w1))
    as [u|] eqn:Hfind;
    [destruct (SecurityUtil_comparePassword inputPassword (User.password u))
       eqn:Hcmp|].
  - rewrite (login_match _ _ w1 u), (login_match _ _ w2 u);
      rewrite <- ?Htable; auto.
  - rewrite (login_mismatch _ _ w1 u), (login_mismatch _ _ w2 u);
      rewrite <- ?Htable; auto.
  - rewrite (login_no_user _ _ w1), (login_no_user _ _ w2);
      rewrite <- ?Htable; auto.
Qed.

Lemma login_attempts_users (attempts : list (string * string)) w :
  users (login_attempts attempts w) = users w.
Proof.
  revert w. induction attempts as [|[n pw] rest IH]; intros w; simpl.
  - reflexivity.
  - rewrite IH. apply login_users.
Qed.


(** X9: the answer of [login] tells whether the username exists, whatever
    the password: the result is the "No such user." object exactly when no
    row of the table has the supplied username. *)
Theorem login_no_such_user_iff inputName inputPassword w :
  fst (login inputName inputPassword w)
  = Fulfilled {[ "success" := VBool false;
                 "message" := VString "No such user." ]}
  <-> forall u, u ∈ users w -> User.username u ≠ inputName.
Proof.
  split.
  - intros Hres.
    destruct (User.findOne User.withPassword (where_username inputName)
                (users w)) as [u|] eqn:Hfind;
      [destruct (SecurityUtil_comparePassword inputPassword (User.password u))
         eqn:Hcmp|].
    + rewrite (login_match _ _ _ u Hfind Hcmp) in Hres.
      apply (f_equal (message_of (E := Error))) in Hres.
      discriminate Hres.
    + rewrite (login_mismatch _ _ _ u Hfind Hcmp) in Hres.
      apply (f_equal (message_of (E := Error))) in Hres.
      discriminate Hres.
    + intros u Hin Hname.
      unfold User.findOne, User.withPassword in Hfind.
      rewrite option_fmap_id in Hfind.
      apply list_elem_of_In in Hin.
      pose proof (find_none _ _ Hfind u Hin) as Hu.
      unfold where_username in Hu.
      rewrite bool_decide_eq_true_2 in Hu by exact Hname. discriminate Hu.
  - intros Hall.
    rewrite login_no_user by (apply findOne_username_None; exact Hall).
    reflexivity.
Qed.

(** ** What [register] does, whatever the persistence layer answers *)


(** X4: a result object of [register] has a user field exactly when its
    success field is [true], never has a token field, has no field besides
    success, message and user, and its message is one of the two messages
    of the source. *)
Theorem register_result_shape userData w r w' :
  register userData w = (Fulfilled r, w') ->
  (is_Some (r !! "user") <-> r !! "success" = Some (VBool true))
  /\ r !! "token" = None
  /\ dom r ⊆ {[ "success"; "message"; "user" ]}
  /\ (r !! "message" = Some (VString "Registration completed.")
      \/ r !! "message" = Some (VString "Registration failed.")).
Proof.
  rewrite register_run.
  destruct (User_create _ (users w)) as [[[user|]|e'] table]; simpl;
    intros [= <- <-].
  - split; [|split; [|split]].
    + split; [reflexivity | intros _; eexists; reflexivity].
    + reflexivity.
    + rewrite !dom_insert_L, dom_singleton_L. set_solver.
    + left. reflexivity.
  - split; [|split; [|split]].
    + split; [intros [v Hv]; discriminate Hv | discriminate].
    + reflexivity.
    + rewrite !dom_insert_L, dom_singleton_L.
      intros x. rewrite !elem_of_union, !elem_of_singleton. tauto.
    + right. reflexivity.
Qed.


(** ** Registration followed by login *)

(** X6: once [register] has created a user over a persistence layer that
    stores what it is given and keeps usernames unique, a login under the
    registered username is decided by comparing the attempted password
    with the hash of the registered one: it succeeds, with a token for
    the created user's id and username, when the comparison holds, and
    ends in "Password did not match." otherwise. *)
Theorem register_then_login userData w user table' (attempt : string) :
  User_create
    (UserData.mk (UserData.username userData)
       (SecurityUtil_generateHash (UserData.password userData))
       (UserData.details userData) (UserData.clientConfig userData))
    (users w) = (Fulfilled (Some user), table') ->
  create_stores_values User_create ->
  User.unique_usernames table' ->
  fst (login (UserData.username userData) attempt
         (snd (register userData w))) =
    Fulfilled
      (if SecurityUtil_comparePassword attempt
            (Some (SecurityUtil_generateHash (UserData.password userData)))
       then {[ "success" := VBool true;
               "message" := VString "User logged in.";
               "token" :=
                 VString
                   (jwt_sign
                      {[ "id" := VId (User.id user);
                         "username" := VString (UserData.username userData) ]}
                      secretOrKey) ]}
       else {[ "success" := VBool false;
               "message" := VString "Password did not match." ]}).
Proof.
  intros Hcreate Hstores Hnd.
  destruct (Hstores _ _ _ _ Hcreate) as (Hin & Hname & Hpw & _).
  simpl in Hname, Hpw.
  rewrite register_run, Hcreate; simpl.
  set (w1 := mkWorld table' _).
  assert (Hfind :
    User.findOne User.withPassword
      (where_username (UserData.username userData)) (users w1) = Some user).
  { apply findOne_username_unique; [exact Hnd | exact Hin | exact Hname]. }
  rewrite <- Hpw.
  destruct (SecurityUtil_comparePassword attempt (User.password user))
    eqn:Hcmp.
  - rewrite (login_match _ _ w1 user Hfind Hcmp). simpl.
    rewrite Hname. reflexivity.
  - rewrite (login_mismatch _ _ w1 user Hfind Hcmp). reflexivity.
Qed.

(** ** The verify callback, over any table *)

Lemma find_where_id_Some (v : option Value) (table : list User) (row : User) :
  find (where_id v) table = Some row ->
  row ∈ table /\ v = Some (VId (User.id row)).
Proof.
  destruct v as [[b|s|i|u']|];
    try (unfold where_id; rewrite find_never; discriminate).
  change (where_id (Some (VId i)))
    with (fun x : User => bool_decide (User.id x = i)).
  intros Hfind. apply (find_key_Some User.id) in Hfind as [Hin Hid].
  split; [exact Hin | rewrite Hid; reflexivity].
Qed.

Lemma find_where_id_None (v : option Value) (table : list User) :
  find (where_id v) table = None ->
  forall row, row ∈ table -> v ≠ Some (VId (User.id row)).
Proof.
  intros Hfind row Hin Hv. subst v.
  apply list_elem_of_In in Hin.
  pose proof (find_none _ _ Hfind row Hin) as Hrow. simpl in Hrow.
  rewrite bool_decide_eq_true_2 in Hrow by reflexivity. discriminate Hrow.
Qed.


(** ** A token of [login], presented to the strategy *)

(** X8: when [login] succeeds over a table with unique ids, its token
    signs a payload with which the verify callback resolves the very user
    that logged in, password left out; and so does any decoded payload
    carrying the same id, whatever else it carries. *)
Theorem login_then_jwtStrategy inputName inputPassword w r w' :
  login inputName inputPassword w = (Fulfilled r, w') ->
  r !! "success" = Some (VBool true) ->
  User.unique_ids (users w) ->
  exists u payload,
    u ∈ users w
    /\ User.username u = inputName
    /\ r !! "token" = Some (VString (jwt_sign payload secretOrKey))
    /\ forall (decoded : Obj) R
              (next : option Error -> option User ->
                      Async Id Details ClientConfig Error R),
         decoded !! "id" = payload !! "id" ->
         jwtStrategy decoded next w'
         = next None (Some (User.defaultScope u)) w'.
Proof.
  intros Hrun Hsuccess Hids.
  assert (Husers : users w' = users w).
  { rewrite <- (login_users inputName inputPassword w), Hrun. reflexivity. }
  destruct (login_fulfilled_branch _ _ _ _ _ Hrun)
    as [Hnone | u Hsome Hcmp | u Hsome Hcmp];
    [discriminate Hsuccess | | discriminate Hsuccess].
  destruct (findOne_username_Some _ _ _ Hsome) as [Hin Hname].
  exists u, {[ "id" := VId (User.id u);
               "username" := VString (User.username u) ]}.
  split; [exact Hin|]. split; [exact Hname|]. split; [reflexivity|].
  intros decoded R next Hid.
  unfold jwtStrategy, mbind, Async_bind, and_then, User_findOne.
  rewrite Hid, Husers.
  change (({[ "id" := VId (User.id u);
              "username" := VString (User.username u) ]} : Obj) !! "id")
    with (Some (VId (User.id u) : Value)).
  rewrite findOne_id_unique by assumption. reflexivity.
Qed.

End Effects.

(** ** The further statements on the concrete deployment *)

Lemma Demo_create_keeps_usernames_unique :
  User.unique_usernames
    [Demo.alice; Demo.bob;
     User.mk 3 "carol" (Some "hash:opensesame") "profile-c" "cfg-c"].
Proof. apply (bool_decide_unpack _). vm_compute. exact I. Qed.

Lemma register_result_shape_witness :
  let r : gmap string Demo.Value :=
    {[ "success" := VBool true;
       "message" := VString "Registration completed.";
       "user" :=
         VUser (User.mk 3 "carol" (Some "hash:opensesame")
                  "profile-c" "cfg-c") ]} in
  (is_Some (r !! "user") <-> r !! "success" = Some (VBool true))
  /\ r !! "token" = None
  /\ dom r ⊆ {[ "success"; "message"; "user" ]}
  /\ (r !! "message" = Some (VString "Registration completed.")
      \/ r !! "message" = Some (VString "Registration failed.")).
Proof.
  apply (register_result_shape (env := Demo.collaborators)
           Demo.carol Demo.world _
           (mkWorld
              [Demo.alice; Demo.bob;
               User.mk 3 "carol" (Some "hash:opensesame") "profile-c" "cfg-c"]
              [(LevelDebug, "Registering user carol.")])).
  reflexivity.
Defined.

Lemma register_then_login_witness :
  fst (login (env := Demo.collaborators) "carol" "opensesame"
         (snd (register (env := Demo.collaborators) Demo.carol Demo.world)))
  = Fulfilled {[ "success" := VBool true;
                 "message" := VString "User logged in.";
                 "token" := VString "jwt.carol.s3cret" ]}
  /\ fst (login (env := Demo.collaborators) "carol" "wonderland"
            (snd (register (env := Demo.collaborators) Demo.carol Demo.world)))
     = Fulfilled {[ "success" := VBool false;
                    "message" := VString "Password did not match." ]}.
Proof.
  split.
  - apply (register_then_login (env := Demo.collaborators)
             Demo.carol Demo.world
             (User.mk 3 "carol" (Some "hash:opensesame") "profile-c" "cfg-c")
             [Demo.alice; Demo.bob;
              User.mk 3 "carol" (Some "hash:opensesame") "profile-c" "cfg-c"]
             "opensesame").
    + reflexivity.
    + exact Demo_create_stores_values.
    + exact Demo_create_keeps_usernames_unique.
  - apply (register_then_login (env := Demo.collaborators)
             Demo.carol Demo.world
             (User.mk 3 "carol" (Some "hash:opensesame") "profile-c" "cfg-c")
             [Demo.alice; Demo.bob;
              User.mk 3 "carol" (Some "hash:opensesame") "profile-c" "cfg-c"]
             "wonderland").
    + reflexivity.
    + exact Demo_create_stores_values.
    + exact Demo_create_keeps_usernames_unique.
Defined.

Lemma login_then_jwtStrategy_witness :
  exists u payload,
    u ∈ users Demo.world
    /\ User.username u = "bob"
    /\ ({[ "success" := VBool true;
           "message" := VString "User logged in.";
           "token" := VString "jwt.bob.s3cret" ]}
         : gmap string Demo.Value) !! "token"
       = Some (VString (Demo.sign payload "s3cret"))
    /\ forall (decoded : gmap string Demo.Value) R
              (next : option string -> option Demo.User ->
                      Async nat string string string R),
         decoded !! "id" = payload !! "id" ->
         jwtStrategy decoded next
           (log_line LevelInfo "User logged in." (login_started Demo.world))
         = next None (Some (User.defaultScope u))
             (log_line LevelInfo "User logged in."
                (login_started Demo.world)).
Proof.
  apply (login_then_jwtStrategy (env := Demo.collaborators)
           "bob" "builder" Demo.world).
  - reflexivity.
  - reflexivity.
  - exact Demo_world_ids.
Defined.
